(** * satstuff: TEME / TIRS / ITRS frame transforms and Sun rise/set events

    A shallow embedding of the two notebooks of the repository:

    - [notebooks/astropy/sgp4_teme_astropy.ipynb]: the custom frames TEME and
      TIRS and the four transforms registered on astropy's frame graph
      ([tirs_to_itrs], [itrs_to_tirs], [teme_to_tirs], [tirs_to_teme]);
    - the Sun altitude notebook: the two loops that label the roots of the
      altitude interpolant and of its derivative.

    The formulas of the frame transforms are first read over the real
    numbers (numpy's float64 vectors become triples of [R]); what a round
    trip returns in floating point is computed in [Binary64], over Rocq's
    binary64 floats. The event loops compare IEEE doubles and are embedded
    over binary64 floats as well. *)

From Stdlib Require Import Reals Lra List String.
From Stdlib Require Floats.
Import ListNotations.

Local Open Scope R_scope.

(** ** Three-vectors and 3x3 matrices (numpy arrays of shape (3,) and (3,3)) *)

Record Vec3 : Type := mkVec3 { vx : R; vy : R; vz : R }.

Definition vadd (a b : Vec3) : Vec3 :=
  mkVec3 (vx a + vx b) (vy a + vy b) (vz a + vz b).

Definition vsub (a b : Vec3) : Vec3 :=
  mkVec3 (vx a - vx b) (vy a - vy b) (vz a - vz b).

Definition dot (a b : Vec3) : R :=
  vx a * vx b + vy a * vy b + vz a * vz b.

(** [np.cross(a, b)] *)
Definition vcross (a b : Vec3) : Vec3 :=
  mkVec3 (vy a * vz b - vz a * vy b)
         (vz a * vx b - vx a * vz b)
         (vx a * vy b - vy a * vx b).

(** A matrix is stored by rows, as numpy does. *)
Record Mat3 : Type := mkMat3 { row0 : Vec3; row1 : Vec3; row2 : Vec3 }.

Definition col0 (m : Mat3) : Vec3 := mkVec3 (vx (row0 m)) (vx (row1 m)) (vx (row2 m)).
Definition col1 (m : Mat3) : Vec3 := mkVec3 (vy (row0 m)) (vy (row1 m)) (vy (row2 m)).
Definition col2 (m : Mat3) : Vec3 := mkVec3 (vz (row0 m)) (vz (row1 m)) (vz (row2 m)).

(** [m.transpose()] *)
Definition transpose (m : Mat3) : Mat3 := mkMat3 (col0 m) (col1 m) (col2 m).

(** [matrix.dot(xyz)] *)
Definition mat_vec (m : Mat3) (v : Vec3) : Vec3 :=
  mkVec3 (dot (row0 m) v) (dot (row1 m) v) (dot (row2 m) v).

Definition mat_mul (a b : Mat3) : Mat3 :=
  mkMat3 (mkVec3 (dot (row0 a) (col0 b)) (dot (row0 a) (col1 b)) (dot (row0 a) (col2 b)))
         (mkVec3 (dot (row1 a) (col0 b)) (dot (row1 a) (col1 b)) (dot (row1 a) (col2 b)))
         (mkVec3 (dot (row2 a) (col0 b)) (dot (row2 a) (col1 b)) (dot (row2 a) (col2 b))).

Definition identity3 : Mat3 :=
  mkMat3 (mkVec3 1 0 0) (mkVec3 0 1 0) (mkVec3 0 0 1).

Definition orthogonal (m : Mat3) : Prop :=
  mat_mul (transpose m) m = identity3 /\ mat_mul m (transpose m) = identity3.

(** ** astropy.coordinates.matrix_utilities.rotation_matrix

    For a principal axis [i] astropy fills [R[i,i] = 1], [R[a1,a1] = c],
    [R[a1,a2] = s], [R[a2,a1] = -s], [R[a2,a2] = c] with [a1 = (i+1) mod 3],
    [a2 = (i+2) mod 3], [c = cos angle], [s = sin angle]. *)

Inductive Axis : Type := AxisX | AxisY | AxisZ.

Definition rotation_matrix (angle : R) (axis : Axis) : Mat3 :=
  let s := sin angle in
  let c := cos angle in
  match axis with
  | AxisX => mkMat3 (mkVec3 1 0 0) (mkVec3 0 c s) (mkVec3 0 (- s) c)
  | AxisY => mkMat3 (mkVec3 c 0 (- s)) (mkVec3 0 1 0) (mkVec3 s 0 c)
  | AxisZ => mkMat3 (mkVec3 c s 0) (mkVec3 (- s) c 0) (mkVec3 0 0 1)
  end.

(** ** Exceptions *)

(** The only exception the transform bodies can raise themselves is the
    [ValueError] of astropy's [BaseCoordinateFrame.velocity] property, raised
    when the frame data carries no ['s'] differential. *)
Inductive exn : Type :=
| ValueError (msg : string).

Inductive result (A : Type) : Type :=
| Ok (a : A)
| Raise (e : exn).

Arguments Ok {A} a.
Arguments Raise {A} e.

Definition bind {A B : Type} (m : result A) (k : A -> result B) : result B :=
  match m with
  | Ok a => k a
  | Raise e => Raise e
  end.

Notation "x <- m ;; k" := (bind m (fun x => k))
  (at level 61, m at next level, right associativity).

Definition is_ok {A : Type} (m : result A) : bool :=
  match m with Ok _ => true | Raise _ => false end.

(** ** Representations (astropy.coordinates.representation)

    A [CartesianRepresentation] holds the position [xyz] and a dictionary of
    differentials whose possible keys are ['s'] (velocity) and ['s2']
    (acceleration); an absent key is [None]. The notebook only builds
    coordinates with a position and a velocity and never looks at key
    ['s2']. *)

Record CartesianRepresentation : Type := mkRep {
  xyz : Vec3;
  diff_s : option Vec3;
  diff_s2 : option Vec3
}.

(** [CartesianRepresentation(v)]: a bare position, no differentials. *)
Definition bare (v : Vec3) : CartesianRepresentation := mkRep v None None.

(** [rep.transform(matrix)] multiplies [xyz] by the matrix. astropy also
    rotates the differentials attached to [rep]; the transform bodies
    overwrite key ['s'] of the result with [with_differentials], and a frame
    holds no data with key ['s2'], so only the position of the result is
    ever read and the embedding keeps the position alone. *)
Definition transform (rep : CartesianRepresentation) (matrix : Mat3)
  : CartesianRepresentation :=
  bare (mat_vec matrix (xyz rep)).

(** [self.cross(other)] *)
Definition cross (self other : CartesianRepresentation) : CartesianRepresentation :=
  bare (vcross (xyz self) (xyz other)).

(** [a + b] and [a - b] on representations *)
Definition rep_add (a b : CartesianRepresentation) : CartesianRepresentation :=
  bare (vadd (xyz a) (xyz b)).

Definition rep_sub (a b : CartesianRepresentation) : CartesianRepresentation :=
  bare (vsub (xyz a) (xyz b)).

(** A [CartesianDifferential] is its three components [d_xyz]. *)
Record CartesianDifferential : Type := mkDiff { d_xyz : Vec3 }.

Definition to_cartesian (d : CartesianDifferential) : CartesianRepresentation :=
  bare (d_xyz d).

Definition from_cartesian (rep : CartesianRepresentation) : CartesianDifferential :=
  mkDiff (xyz rep).

(** [rep.with_differentials(d)]: same position, the differentials of [rep]
    updated at key ['s']. *)
Definition with_differentials (rep : CartesianRepresentation) (d : CartesianDifferential)
  : CartesianRepresentation :=
  mkRep (xyz rep) (Some (d_xyz d)) (diff_s2 rep).

(** ** External Earth-orientation routines *)

Inductive TimeScale : Type := UT1 | TT.

(** [erfa.pom00(xp, yp, sp)]: starting from the identity, ERFA rotates about z
    by [sp], then about y by [-xp], then about x by [-yp], each rotation
    multiplying on the left. *)
Definition pom00 (xp yp sp : R) : Mat3 :=
  mat_mul (rotation_matrix (- yp) AxisX)
    (mat_mul (rotation_matrix (- xp) AxisY)
       (mat_mul (rotation_matrix sp AxisZ) identity3)).

(** Nominal mean angular velocity of the Earth [rad/s] as per GRS 80. *)
Definition _w : Vec3 := mkVec3 0 0 7.292115e-5.

Inductive FrameClass : Type := TEME | TIRS | ITRS.

(** astropy's [Time] and the routines that read the Earth-orientation tables
    are external: [get_jd12] gives the two-part Julian date of an instant in
    a time scale, [get_polar_motion] the pole offsets (xp, yp), [erfa_gmst82]
    the Greenwich mean sidereal angle and [erfa_sp00] the TIO locator s'. *)
Class EarthOrientationProvider (Time : Type) : Type := {
  get_jd12 : Time -> TimeScale -> R * R;
  get_polar_motion : Time -> R * R;
  erfa_gmst82 : R -> R -> R;
  erfa_sp00 : R -> R -> R
}.

(** A frame without data (what a transform receives as its target), and a
    coordinate: a frame realised with data. [TEME] and [TIRS] declare the
    single frame attribute [obstime]. *)
Record Frame (Time : Type) : Type := mkFrame {
  frame_cls : FrameClass;
  obstime : Time
}.

Arguments mkFrame {Time} frame_cls obstime.
Arguments frame_cls {Time} f.
Arguments obstime {Time} f.

Record Coord (Time : Type) : Type := mkCoord {
  frame : Frame Time;
  data : CartesianRepresentation
}.

Arguments mkCoord {Time} frame data.
Arguments frame {Time} c.
Arguments data {Time} c.

Section Frames.

Context {Time : Type} {eop : EarthOrientationProvider Time}.

(** [coord.cartesian] *)
Definition cartesian (c : Coord Time) : CartesianRepresentation := data c.

(** [coord.velocity]: raises when the data has no ['s'] differential. *)
Definition velocity (c : Coord Time) : result CartesianDifferential :=
  match diff_s (data c) with
  | Some v => Ok (mkDiff v)
  | None =>
      Raise (ValueError
        "Frame has no associated velocity (Differential) data information.")
  end.

(** [frame.realize_frame(rep)] *)
Definition realize_frame (f : Frame Time) (rep : CartesianRepresentation) : Coord Time :=
  mkCoord f rep.

(** *** TIRS <-> ITRS *)

Definition _polar_mot_matrix (t : Time) : Mat3 :=
  (* compute the polar motion p-matrix *)
  let '(xp, yp) := get_polar_motion t in
  let sp := (let '(jd1, jd2) := get_jd12 t TT in erfa_sp00 jd1 jd2) in
  let polar_mot_mat := pom00 xp yp sp in
  polar_mot_mat.

Definition tirs_to_itrs (tirs_coord : Coord Time) (itrs_frame : Frame Time) : Mat3 :=
  let tirs_to_itrs_mat := _polar_mot_matrix (obstime (frame tirs_coord)) in
  tirs_to_itrs_mat.

Definition itrs_to_tirs (itrs_coord : Coord Time) (tirs_frame : Frame Time) : Mat3 :=
  let itrs_to_tirs_mat := transpose (_polar_mot_matrix (obstime (frame itrs_coord))) in
  itrs_to_tirs_mat.

(** *** TEME <-> TIRS *)

Definition _gmst82_angle (t : Time) : R :=
  (* Get GMST82 angle in rad *)
  let gmst82 := (let '(jd1, jd2) := get_jd12 t UT1 in erfa_gmst82 jd1 jd2) in
  gmst82.

Definition teme_to_tirs (teme_coord : Coord Time) (tirs_frame : Frame Time)
  : result (Coord Time) :=
  (* TEME to TIRS basic rotation matrix *)
  let teme_to_pef_mat :=
    rotation_matrix (_gmst82_angle (obstime (frame teme_coord))) AxisZ in
  (* rotate position vector: TEME to TIRS *)
  let r_tirs := transform (cartesian teme_coord) teme_to_pef_mat in
  (* prepare rotation offset: w x r_TIRS *)
  let wxr := cross (bare _w) r_tirs in
  (* do the velocity rotation and then add rotation offset *)
  vel <- velocity teme_coord ;;
  let v_tirs := rep_sub (transform (to_cartesian vel) teme_to_pef_mat) wxr in
  let v_tirs := from_cartesian v_tirs in
  (* Prepare final coord vector with velocity *)
  let tirs_coord := with_differentials r_tirs v_tirs in
  (* Add coord data to the existing frame *)
  Ok (realize_frame tirs_frame tirs_coord).

Definition tirs_to_teme (tirs_coord : Coord Time) (teme_frame : Frame Time)
  : result (Coord Time) :=
  (* TIRS to TEME basic rotation matrix *)
  let teme_to_pef_mat :=
    rotation_matrix (_gmst82_angle (obstime (frame tirs_coord))) AxisZ in
  let pef_to_teme_mat := transpose teme_to_pef_mat in
  (* rotate position vector: TIRS to TEME *)
  let r_teme := transform (cartesian tirs_coord) pef_to_teme_mat in
  (* prepare rotation offset: w x r_TIRS *)
  let wxr := cross (bare _w) (cartesian tirs_coord) in
  (* add rotation offset and then do the velocity rotation *)
  vel <- velocity tirs_coord ;;
  let v_teme := transform (rep_add (to_cartesian vel) wxr) pef_to_teme_mat in
  let v_teme := from_cartesian v_teme in
  (* Prepare final coord vector with velocity *)
  let teme_coord := with_differentials r_teme v_teme in
  (* Add coord data to the existing frame *)
  Ok (realize_frame teme_frame teme_coord).

(** *** The transform graph *)

(** The two kinds of edge the notebook registers with
    [@frame_transform_graph.transform]: a [DynamicMatrixTransform] supplies a
    matrix, a [FunctionTransform] the whole coordinate. *)
Inductive TransformEdge : Type :=
| DynamicMatrixTransform (matrix_func : Coord Time -> Frame Time -> Mat3)
| FunctionTransform (func : Coord Time -> Frame Time -> result (Coord Time)).

(** The four decorated functions, in the order of the notebook. *)
Definition frame_transform_graph : list (FrameClass * FrameClass * TransformEdge) :=
  [ (TIRS, ITRS, DynamicMatrixTransform tirs_to_itrs);
    (ITRS, TIRS, DynamicMatrixTransform itrs_to_tirs);
    (TEME, TIRS, FunctionTransform teme_to_tirs);
    (TIRS, TEME, FunctionTransform tirs_to_teme) ].

Definition registered (a b : FrameClass) (e : TransformEdge) : Prop :=
  In (a, b, e) frame_transform_graph.

(** Modelled from the spec: how the graph applies a matrix edge (astropy's own
    [DynamicMatrixTransform], which is not part of the notebooks). Section
    4.1: compute [M = edge.matrix_fn(instant)]; the new position is
    [M . position]; the new velocity is [M . velocity] if present. The result
    is realised in the target frame. *)
Definition apply_matrix_edge (matrix_func : Coord Time -> Frame Time -> Mat3)
    (fromcoord : Coord Time) (toframe : Frame Time) : Coord Time :=
  let M := matrix_func fromcoord toframe in
  realize_frame toframe
    (mkRep (mat_vec M (xyz (data fromcoord)))
           (option_map (mat_vec M) (diff_s (data fromcoord)))
           None).

(** Modelled from the spec: applying a function edge delegates entirely to
    the supplied function (section 4.1). *)
Definition apply_edge (e : TransformEdge) (fromcoord : Coord Time) (toframe : Frame Time)
  : result (Coord Time) :=
  match e with
  | DynamicMatrixTransform matrix_func =>
      Ok (apply_matrix_edge matrix_func fromcoord toframe)
  | FunctionTransform func => func fromcoord toframe
  end.

End Frames.

Arguments TransformEdge Time : clear implicits.

(** ** Two hops: TEME <-> ITRS

    [coord_teme.transform_to(...)] reaches ITRS from TEME through TIRS: the
    only way in and out of TEME is the neighbouring TIRS frame. *)

Section Chains.

Context {Time : Type} {eop : EarthOrientationProvider Time}.

(** Modelled from the spec: chaining TEME to ITRS is the graph composing the
    two registered edges in sequence, with no shortcut matrix (section 4.2);
    the composition itself is astropy's. The intermediate TIRS frame carries
    the instant of the target frame. (For a state that has a velocity astropy
    goes this way only when the target instant is the instant of the state.) *)
Definition teme_to_itrs (teme_coord : Coord Time) (itrs_frame : Frame Time)
  : result (Coord Time) :=
  tirs_coord <- apply_edge (FunctionTransform teme_to_tirs) teme_coord
                  (mkFrame TIRS (obstime itrs_frame)) ;;
  apply_edge (DynamicMatrixTransform tirs_to_itrs) tirs_coord itrs_frame.

(** Modelled from the spec: the reverse chain, ITRS to TIRS to TEME, composed
    the same way. *)
Definition itrs_to_teme (itrs_coord : Coord Time) (teme_frame : Frame Time)
  : result (Coord Time) :=
  tirs_coord <- apply_edge (DynamicMatrixTransform itrs_to_tirs) itrs_coord
                  (mkFrame TIRS (obstime teme_frame)) ;;
  apply_edge (FunctionTransform tirs_to_teme) tirs_coord teme_frame.

End Chains.

(** ** The worked example of the notebook

    The TEME state of Vallado's example (the notebook's [r_TEME_true] and
    [v_TEME_true], km and km/s) at day 182.78495062 of 2000, here as a Julian
    date. The examples run against a fixed Earth orientation: instants are
    Julian dates, and the sidereal angle, the pole offsets and s' are the
    same small constants at every instant. *)

Definition r_TEME_true : Vec3 := mkVec3 (-9060.47373569) 4658.70952502 813.68673153.
Definition v_TEME_true : Vec3 := mkVec3 (-2.232832783) (-4.110453490) (-3.157345433).
Definition output_time : R := 2451726.28495062.

Definition fixed_orientation : EarthOrientationProvider R := {|
  get_jd12 := fun t _ => (t, 0);
  get_polar_motion := fun _ => (5e-7, 2e-6);
  erfa_gmst82 := fun _ _ => 3.52;
  erfa_sp00 := fun _ _ => -1e-10
|}.

Definition coord_teme : Coord R :=
  mkCoord (mkFrame TEME output_time) (mkRep r_TEME_true (Some v_TEME_true) None).

(** The same state without its velocity. *)
Definition coord_teme_position_only : Coord R :=
  mkCoord (mkFrame TEME output_time) (mkRep r_TEME_true None None).

(** The same numbers read as a TIRS state, with and without velocity. *)
Definition coord_tirs : Coord R :=
  mkCoord (mkFrame TIRS output_time) (mkRep r_TEME_true (Some v_TEME_true) None).

Definition coord_tirs_position_only : Coord R :=
  mkCoord (mkFrame TIRS output_time) (mkRep r_TEME_true None None).

Definition tirs_at_output_time : Frame R := mkFrame TIRS output_time.
Definition itrs_at_output_time : Frame R := mkFrame ITRS output_time.

(** ** The TEME <-> TIRS and TIRS <-> ITRS transforms in binary64

    The same four functions with numpy's arithmetic: every component is an
    IEEE double and every operation rounds. A product of a matrix and a
    vector accumulates each row from left to right, as [np.cross] and the
    matrix product of the notebook do on three components. *)

Module Binary64.

Import Floats.

Record Vec3 : Type := mkVec3 { vx : float; vy : float; vz : float }.

Definition vadd (a b : Vec3) : Vec3 :=
  mkVec3 (vx a + vx b) (vy a + vy b) (vz a + vz b).

Definition vsub (a b : Vec3) : Vec3 :=
  mkVec3 (vx a - vx b) (vy a - vy b) (vz a - vz b).

Definition dot (a b : Vec3) : float :=
  vx a * vx b + vy a * vy b + vz a * vz b.

(** [np.cross(a, b)] *)
Definition vcross (a b : Vec3) : Vec3 :=
  mkVec3 (vy a * vz b - vz a * vy b)
         (vz a * vx b - vx a * vz b)
         (vx a * vy b - vy a * vx b).

Definition norm (a : Vec3) : float := sqrt (dot a a).

Record Mat3 : Type := mkMat3 { row0 : Vec3; row1 : Vec3; row2 : Vec3 }.

Definition transpose (m : Mat3) : Mat3 :=
  mkMat3 (mkVec3 (vx (row0 m)) (vx (row1 m)) (vx (row2 m)))
         (mkVec3 (vy (row0 m)) (vy (row1 m)) (vy (row2 m)))
         (mkVec3 (vz (row0 m)) (vz (row1 m)) (vz (row2 m))).

Definition mat_vec (m : Mat3) (v : Vec3) : Vec3 :=
  mkVec3 (dot (row0 m) v) (dot (row1 m) v) (dot (row2 m) v).

(** Nominal mean angular velocity of the Earth [rad/s]: 7.292115e-5. *)
Definition _w : Vec3 := mkVec3 0 0 0x1.31da7d157db65p-14.

(** What comes from outside: the sidereal angle of an instant
    ([erfa.gmst82] on its UT1 Julian date), numpy's cosine and sine, and the
    polar-motion matrix [erfa.pom00] returns for an instant. *)
Class Orientation (Time : Type) : Type := {
  gmst82_angle : Time -> float;
  np_cos : float -> float;
  np_sin : float -> float;
  polar_mot_matrix : Time -> Mat3
}.

(** A coordinate: its frame, its position and, when it has one, its
    velocity. *)
Record Coord (Time : Type) : Type := mkCoord {
  frame : Frame Time;
  xyz : Vec3;
  velocity : option Vec3
}.

Arguments mkCoord {Time} frame xyz velocity.
Arguments frame {Time} c.
Arguments xyz {Time} c.
Arguments velocity {Time} c.

(** The tolerance of the round-trip property, 1e-9 relative:
    [|a - b| <= 1e-9 |b|], itself evaluated in binary64. *)
Definition rtol : float := 0x1.12e0be826d695p-30.

Definition within_rtol (a b : Vec3) : bool :=
  (norm (vsub a b) <=? rtol * norm b)%float.

(** [back] reproduces the state [s]: it is a state, its position is within
    the tolerance of the position of [s], and so is its velocity. *)
Definition reproduces {Time : Type} (s : Coord Time) (back : result (Coord Time)) : bool :=
  match back with
  | Ok c =>
      within_rtol (xyz c) (xyz s)
      && match velocity s, velocity c with
         | Some v, Some v_back => within_rtol v_back v
         | None, None => true
         | _, _ => false
         end
  | Raise _ => false
  end.

Section Transforms.

Context {Time : Type} {orientation : Orientation Time}.

(** [rotation_matrix(angle, axis='z')] *)
Definition rotation_matrix_z (angle : float) : Mat3 :=
  let s := np_sin angle in
  let c := np_cos angle in
  mkMat3 (mkVec3 c s 0) (mkVec3 (- s) c 0) (mkVec3 0 0 1).

(** [coord.velocity] *)
Definition velocity_of (c : Coord Time) : result Vec3 :=
  match velocity c with
  | Some v => Ok v
  | None =>
      Raise (ValueError
        "Frame has no associated velocity (Differential) data information.")
  end.

Definition teme_to_tirs (teme_coord : Coord Time) (tirs_frame : Frame Time)
  : result (Coord Time) :=
  let teme_to_pef_mat := rotation_matrix_z (gmst82_angle (obstime (frame teme_coord))) in
  let r_tirs := mat_vec teme_to_pef_mat (xyz teme_coord) in
  let wxr := vcross _w r_tirs in
  vel <- velocity_of teme_coord ;;
  let v_tirs := vsub (mat_vec teme_to_pef_mat vel) wxr in
  Ok (mkCoord tirs_frame r_tirs (Some v_tirs)).

Definition tirs_to_teme (tirs_coord : Coord Time) (teme_frame : Frame Time)
  : result (Coord Time) :=
  let teme_to_pef_mat := rotation_matrix_z (gmst82_angle (obstime (frame tirs_coord))) in
  let pef_to_teme_mat := transpose teme_to_pef_mat in
  let r_teme := mat_vec pef_to_teme_mat (xyz tirs_coord) in
  let wxr := vcross _w (xyz tirs_coord) in
  vel <- velocity_of tirs_coord ;;
  let v_teme := mat_vec pef_to_teme_mat (vadd vel wxr) in
  Ok (mkCoord teme_frame r_teme (Some v_teme)).

(** The two matrix edges, with the matrix applied to position and velocity. *)
Definition tirs_to_itrs (tirs_coord : Coord Time) (itrs_frame : Frame Time)
  : result (Coord Time) :=
  let tirs_to_itrs_mat := polar_mot_matrix (obstime (frame tirs_coord)) in
  Ok (mkCoord itrs_frame (mat_vec tirs_to_itrs_mat (xyz tirs_coord))
        (option_map (mat_vec tirs_to_itrs_mat) (velocity tirs_coord))).

Definition itrs_to_tirs (itrs_coord : Coord Time) (tirs_frame : Frame Time)
  : result (Coord Time) :=
  let itrs_to_tirs_mat := transpose (polar_mot_matrix (obstime (frame itrs_coord))) in
  Ok (mkCoord tirs_frame (mat_vec itrs_to_tirs_mat (xyz itrs_coord))
        (option_map (mat_vec itrs_to_tirs_mat) (velocity itrs_coord))).

(** The two bodies with the rotation offset [wxr] left out of the velocity:
    not part of the notebook, but what a round trip is compared against. *)
Definition teme_to_tirs_without_wxr (teme_coord : Coord Time) (tirs_frame : Frame Time)
  : result (Coord Time) :=
  let teme_to_pef_mat := rotation_matrix_z (gmst82_angle (obstime (frame teme_coord))) in
  let r_tirs := mat_vec teme_to_pef_mat (xyz teme_coord) in
  vel <- velocity_of teme_coord ;;
  let v_tirs := mat_vec teme_to_pef_mat vel in
  Ok (mkCoord tirs_frame r_tirs (Some v_tirs)).

Definition tirs_to_teme_without_wxr (tirs_coord : Coord Time) (teme_frame : Frame Time)
  : result (Coord Time) :=
  let teme_to_pef_mat := rotation_matrix_z (gmst82_angle (obstime (frame tirs_coord))) in
  let pef_to_teme_mat := transpose teme_to_pef_mat in
  let r_teme := mat_vec pef_to_teme_mat (xyz tirs_coord) in
  vel <- velocity_of tirs_coord ;;
  let v_teme := mat_vec pef_to_teme_mat vel in
  Ok (mkCoord teme_frame r_teme (Some v_teme)).

(** [transform(transform(s, B), A)]: to the frame [b] at the instant of [s]
    and back to the frame of [s]. *)
Definition there_and_back
    (forth back : Coord Time -> Frame Time -> result (Coord Time))
    (b : FrameClass) (s : Coord Time) : result (Coord Time) :=
  mid <- forth s (mkFrame b (obstime (frame s))) ;;
  back mid (frame s).

End Transforms.

(** *** Examples

    Instants are Julian dates. The first orientation stands at sidereal
    angle zero, where cosine and sine are exactly 1 and 0; the second at
    3.52 rad, with the cosine and sine of 3.52 rounded to binary64
    (-0.9292542053441233 and -0.3694409585444771). Neither has any polar
    motion. *)
Definition identity3 : Mat3 :=
  mkMat3 (mkVec3 1 0 0) (mkVec3 0 1 0) (mkVec3 0 0 1).

Definition at_angle_zero : Orientation float := {|
  gmst82_angle := fun _ => 0%float;
  np_cos := fun _ => 1%float;
  np_sin := fun _ => 0%float;
  polar_mot_matrix := fun _ => identity3
|}.

Definition at_angle_352 : Orientation float := {|
  gmst82_angle := fun _ => 0x1.c28f5c28f5c29p+1%float;
  np_cos := fun _ => (-0x1.dbc7350b3f388p-1)%float;
  np_sin := fun _ => (-0x1.7a4ebb0b01748p-2)%float;
  polar_mot_matrix := fun _ => identity3
|}.

(** The instant of the notebook's example, JD 2451726.28495062. *)
Definition output_time : float := 0x1.2b4872479430dp+21.

(** The notebook's example state ([r_TEME_true], [v_TEME_true]):
    (-9060.47373569, 4658.70952502, 813.68673153) km and
    (-2.232832783, -4.110453490, -3.157345433) km/s. *)
Definition coord_teme : Coord float :=
  mkCoord (mkFrame TEME output_time)
    (mkVec3 (-0x1.1b23ca35effc0p+13) 0x1.232b5a36e8498p+12 0x1.96d7e6d19b3dbp+9)
    (Some (mkVec3 (-0x1.1dcd76f235f92p+1) (-0x1.0711ab83d1dc3p+2)
                  (-0x1.9423e52874799p+1))).

(** A satellite on the geostationary radius, almost at rest over the
    rotating Earth: TIRS position (42164, 0, 0) km, TIRS velocity
    (0, 1e-9, 0) km/s. *)
Definition coord_tirs_geostationary : Coord float :=
  mkCoord (mkFrame TIRS output_time)
    (mkVec3 42164 0 0)
    (Some (mkVec3 0 0x1.12e0be826d695p-30 0)).

End Binary64.

(** ** Sun rise/set and highest/lowest events

    [event_time], the derivative and the altitude are numpy float64 values:
    the comparisons below are IEEE comparisons on binary64 floats. *)

Module SunEvents.

Import Floats.

(** The kinds of event, and the header line the notebook prints for each. *)
Inductive EventKind : Type :=
| rising_crossing
| falling_crossing
| local_max
| local_min.

Definition label (k : EventKind) : string :=
  match k with
  | rising_crossing => "Sunrise time:"
  | falling_crossing => "Sunset time:"
  | local_max => "Sun highest time:"
  | local_min => "Sun lowest time:"
  end.

(** What one [print] call writes: a fixed text, a formatted instant, or the
    altitude line. Formatting of instants (time zone, calendar) is astropy's. *)
Inductive Line : Type :=
| Text (s : string)
| TimeOf (event_time : float)
| AltitudeOf (alt : float).

(** The variables the first loop assigns, and the console. *)
Record RiseSetState : Type := mkRiseSet {
  sun_rise_time : option float;
  sun_set_time : option float;
  stdout : list Line
}.

(** A notebook cell runs statement by statement on the state of the kernel.
    A statement returns a value, or raises: an exception ends the cell and
    leaves the state as it is at that point ([None]). *)
Definition Cell (A : Type) : Type := RiseSetState -> RiseSetState * option A.

Definition ret {A : Type} (a : A) : Cell A := fun st => (st, Some a).

Definition and_then {A B : Type} (m : Cell A) (k : A -> Cell B) : Cell B :=
  fun st =>
    match m st with
    | (st', Some a) => k a st'
    | (st', None) => (st', None)
    end.

Notation "x <~ m ;; k" := (and_then m (fun x => k))
  (at level 61, m at next level, right associativity).

Definition print (l : Line) : Cell unit :=
  fun st => (mkRiseSet (sun_rise_time st) (sun_set_time st) (stdout st ++ [l]), Some tt).

Definition set_sun_rise_time (instant : float) : Cell unit :=
  fun st => (mkRiseSet (Some instant) (sun_set_time st) (stdout st), Some tt).

Definition set_sun_set_time (instant : float) : Cell unit :=
  fun st => (mkRiseSet (sun_rise_time st) (Some instant) (stdout st), Some tt).

(** [for event_time in events: body] *)
Fixpoint for_each (body : float -> Cell unit) (events : list float) : Cell unit :=
  match events with
  | [] => ret tt
  | event_time :: rest => _ <~ body event_time ;; for_each body rest
  end.

Section Loops.

(** The two interpolants are scipy objects; calling one evaluates it. *)
Variable sun_alt_interpolator : float -> float.
Variable sun_interpolator_deriv_alt : float -> float.

(** astropy's [Time]. [Time(x, format="unix", scale="utc")] raises unless it
    accepts the value [x] (it refuses a value that is not finite);
    [instant.to_datetime(timezone=...)] raises when the instant is not one a
    [datetime] can hold. Which values pass is astropy's business; an instant
    is kept as its unix value. *)
Variable unix_value_accepted : float -> bool.
Variable datetime_representable : float -> bool.

Definition Time_unix (event_time : float) : Cell float :=
  fun st => (st, if unix_value_accepted event_time then Some event_time else None).

Definition to_datetime (instant : float) : Cell float :=
  fun st => (st, if datetime_representable instant then Some instant else None).

(** Body of [for event_time in rise_set_events]. *)
Definition rise_set_body (event_time : float) : Cell unit :=
  let deriv := sun_interpolator_deriv_alt event_time in
  _ <~ (if (0 <? deriv)%float then
          instant <~ Time_unix event_time ;;
          _ <~ set_sun_rise_time instant ;;
          print (Text "Sunrise time:")
        else
          instant <~ Time_unix event_time ;;
          _ <~ set_sun_set_time instant ;;
          print (Text "Sunset time:")) ;;
  instant <~ Time_unix event_time ;;
  local <~ to_datetime instant ;;
  print (TimeOf local).

Definition rise_set_loop (rise_set_events : list float) : Cell unit :=
  for_each rise_set_body rise_set_events.

(** Body of [for event_time in min_max_events]; the loop assigns nothing and
    only prints. *)
Definition min_max_body (event_time : float) : Cell unit :=
  let pos := sun_alt_interpolator event_time in
  _ <~ (if (0 <? pos)%float then print (Text "Sun highest time:")
        else print (Text "Sun lowest time:")) ;;
  instant <~ Time_unix event_time ;;
  local <~ to_datetime instant ;;
  _ <~ print (TimeOf local) ;;
  print (AltitudeOf (sun_alt_interpolator event_time)).

Definition min_max_loop (min_max_events : list float) : Cell unit :=
  for_each min_max_body min_max_events.

End Loops.

(** A root the loops can print: [Time] accepts it and [to_datetime] can
    render it. *)
Definition printable (unix_value_accepted datetime_representable : float -> bool)
    (event_time : float) : Prop :=
  unix_value_accepted event_time = true /\ datetime_representable event_time = true.

(** *** The interpolant's constructor *)

Inductive InterpolatorError : Type :=
| NonMonotonicSamplesError.

Record Interpolant : Type := mkInterpolant {
  sample_times : list float;
  sample_values : list float
}.

Fixpoint strictly_increasing (times : list float) : bool :=
  match times with
  | a :: (b :: _) as rest => (a <? b)%float && strictly_increasing rest
  | _ => true
  end.

(** Modelled from the spec: the constructor of the EventInterpolator. The
    notebook calls [interpolate.Akima1DInterpolator(t__float_list, alt)], which
    is scipy's code, not the repository's. Section 4.3: the interpolant is
    constructed from strictly increasing time samples paired with value
    samples; section 7: construction with non-increasing time samples fails
    with [NonMonotonicSamplesError]. *)
Definition make_interpolant (times values : list float)
  : InterpolatorError + Interpolant :=
  if strictly_increasing times then inr (mkInterpolant times values)
  else inl NonMonotonicSamplesError.

(** *** Reading the console back

    The instants, the altitudes and the fixed texts that were printed, in the
    order they were printed. *)
Definition printed_times (out : list Line) : list float :=
  flat_map (fun l => match l with TimeOf t => [t] | _ => [] end) out.

Definition printed_altitudes (out : list Line) : list float :=
  flat_map (fun l => match l with AltitudeOf a => [a] | _ => [] end) out.

Definition printed_texts (out : list Line) : list string :=
  flat_map (fun l => match l with Text s => [s] | _ => [] end) out.

(** *** A toy altitude curve for the examples

    [alt(t) = t^3 - 3 t] with derivative [3 t^2 - 3]: it crosses zero at
    [-sqrt 3], [0] and [sqrt 3] and is stationary at [-1] and [1]. The second
    curve, [(t - 2)^2], touches zero at [2], where its derivative vanishes
    too. *)
Definition cubic_alt (t : float) : float := (t * t * t - 3 * t)%float.
Definition cubic_deriv (t : float) : float := (3 * t * t - 3)%float.
Definition cubic_roots : list float :=
  [(-0x1.bb67ae8584caap+0)%float; 0%float; 0x1.bb67ae8584caap+0%float].
Definition cubic_deriv_roots : list float := [(-1)%float; 1%float].

Definition touching_alt (t : float) : float := ((t - 2) * (t - 2))%float.
Definition touching_deriv (t : float) : float := (2 * (t - 2))%float.

Definition initial_state : RiseSetState := mkRiseSet None None [].

(** A curve that stays above zero at its stationary points [-1] and [1]: the
    Sun never sets. *)
Definition midnight_sun_alt (t : float) : float := (t * t * t - 3 * t + 5)%float.

(** For the examples: [Time] accepts the finite values, and a [datetime]
    holds the years 1 to 9999 (unix seconds from -62135596800 up to
    253402300800). *)
Definition finite_value (x : float) : bool := is_finite x.

Definition within_datetime_years (x : float) : bool :=
  andb (-0x1.cef23ee000000p+35 <=? x)%float (x <? 0x1.d7ffa20c00000p+37)%float.

End SunEvents.
(** ** Algebra of vectors and matrices *)

Lemma vec3_eq (a b : Vec3) :
  vx a = vx b -> vy a = vy b -> vz a = vz b -> a = b.
Proof. destruct a, b; simpl; intros; subst; reflexivity. Qed.

Lemma mat3_eq (a b : Mat3) :
  row0 a = row0 b -> row1 a = row1 b -> row2 a = row2 b -> a = b.
Proof. destruct a, b; simpl; intros; subst; reflexivity. Qed.

Ltac vec_unfold :=
  cbv beta iota delta
    [mat_mul mat_vec transpose identity3 dot col0 col1 col2
     vadd vsub vcross row0 row1 row2 vx vy vz].

Ltac vec_split :=
  vec_unfold;
  repeat (apply mat3_eq; vec_unfold);
  repeat (apply vec3_eq; vec_unfold).

Ltac vec_ring :=
  repeat match goal with
         | v : Vec3 |- _ => destruct v
         | m : Mat3 |- _ => destruct m
         end;
  vec_split; try ring.

Lemma transpose_involutive (m : Mat3) : transpose (transpose m) = m.
Proof. vec_ring. Qed.

Lemma mat_mul_assoc (a b c : Mat3) :
  mat_mul (mat_mul a b) c = mat_mul a (mat_mul b c).
Proof. vec_ring. Qed.

Lemma transpose_mat_mul (a b : Mat3) :
  transpose (mat_mul a b) = mat_mul (transpose b) (transpose a).
Proof. vec_ring. Qed.

Lemma mat_mul_identity_l (a : Mat3) : mat_mul identity3 a = a.
Proof. vec_ring. Qed.

Lemma orthogonal_identity : orthogonal identity3.
Proof. split; vec_ring. Qed.

Lemma orthogonal_transpose (m : Mat3) : orthogonal m -> orthogonal (transpose m).
Proof.
  intros [Hl Hr]. split; rewrite transpose_involutive; assumption.
Qed.

Lemma orthogonal_mat_mul (a b : Mat3) :
  orthogonal a -> orthogonal b -> orthogonal (mat_mul a b).
Proof.
  intros [Hal Har] [Hbl Hbr]. split; rewrite transpose_mat_mul.
  - rewrite mat_mul_assoc, <- (mat_mul_assoc (transpose a) a b), Hal.
    rewrite mat_mul_identity_l. exact Hbl.
  - rewrite mat_mul_assoc, <- (mat_mul_assoc b (transpose b) (transpose a)), Hbr.
    rewrite mat_mul_identity_l. exact Har.
Qed.

Lemma sin_cos_one (a : R) : sin a * sin a + cos a * cos a = 1.
Proof. generalize (sin2_cos2 a). unfold Rsqr. trivial. Qed.

Lemma rotation_matrix_orthogonal (angle : R) (axis : Axis) :
  orthogonal (rotation_matrix angle axis).
Proof.
  pose proof (sin_cos_one angle) as H.
  split; destruct axis; unfold rotation_matrix;
    vec_split; lra.
Qed.

(** The transpose of a z-rotation is the z-rotation by the opposite angle. *)
Lemma rotation_matrix_transpose (angle : R) (axis : Axis) :
  transpose (rotation_matrix angle axis) = rotation_matrix (- angle) axis.
Proof.
  destruct axis; unfold rotation_matrix; rewrite sin_neg, cos_neg;
    vec_split; ring.
Qed.


Lemma pom00_orthogonal (xp yp sp : R) : orthogonal (pom00 xp yp sp).
Proof.
  unfold pom00.
  repeat apply orthogonal_mat_mul;
    auto using rotation_matrix_orthogonal, orthogonal_identity.
Qed.

(** ** The frame transforms *)

Section FrameFacts.

Context {Time : Type} {eop : EarthOrientationProvider Time}.

Lemma _polar_mot_matrix_pom00 (t : Time) :
  _polar_mot_matrix t
  = pom00 (fst (get_polar_motion t)) (snd (get_polar_motion t))
          (erfa_sp00 (fst (get_jd12 t TT)) (snd (get_jd12 t TT))).
Proof.
  unfold _polar_mot_matrix.
  destruct (get_polar_motion t) as [xp yp], (get_jd12 t TT) as [jd1 jd2].
  reflexivity.
Qed.

Lemma velocity_present (c : Coord Time) (v : Vec3) :
  diff_s (data c) = Some v -> velocity c = Ok (mkDiff v).
Proof. unfold velocity. intros ->. reflexivity. Qed.

Lemma velocity_absent (c : Coord Time) :
  diff_s (data c) = None -> exists e, velocity c = Raise e.
Proof. unfold velocity. intros ->. eexists. reflexivity. Qed.

(** The value [teme_to_tirs] returns on a coordinate with velocity. *)
Lemma teme_to_tirs_value (c : Coord Time) (f : Frame Time) (v : Vec3) :
  diff_s (data c) = Some v ->
  teme_to_tirs c f
  = Ok (mkCoord f
          (mkRep (mat_vec (rotation_matrix (_gmst82_angle (obstime (frame c))) AxisZ)
                          (xyz (data c)))
                 (Some (vsub
                    (mat_vec (rotation_matrix (_gmst82_angle (obstime (frame c))) AxisZ) v)
                    (vcross _w
                       (mat_vec (rotation_matrix (_gmst82_angle (obstime (frame c))) AxisZ)
                                (xyz (data c))))))
                 None)).
Proof.
  intros Hv. unfold teme_to_tirs. rewrite (velocity_present c v Hv). reflexivity.
Qed.

(** The value [tirs_to_teme] returns on a coordinate with velocity. *)
Lemma tirs_to_teme_value (c : Coord Time) (f : Frame Time) (v : Vec3) :
  diff_s (data c) = Some v ->
  tirs_to_teme c f
  = Ok (mkCoord f
          (mkRep (mat_vec
                    (transpose (rotation_matrix (_gmst82_angle (obstime (frame c))) AxisZ))
                    (xyz (data c)))
                 (Some (mat_vec
                    (transpose (rotation_matrix (_gmst82_angle (obstime (frame c))) AxisZ))
                    (vadd v (vcross _w (xyz (data c))))))
                 None)).
Proof.
  intros Hv. unfold tirs_to_teme. rewrite (velocity_present c v Hv). reflexivity.
Qed.

(** C1. On a coordinate that carries a velocity, TEME to TIRS returns, in the
    target frame, the position [R . r_teme] and the velocity
    [R . v_teme - w x r_tirs], where [R] is the rotation about z by the
    sidereal angle at the coordinate's instant, [w = (0, 0, 7.292115e-5)] and
    [r_tirs] is the rotated position. Componentwise the velocity is
    [(c vx + s vy + w3 y', - s vx + c vy - w3 x', vz)] with [(x', y')] the
    rotated position. *)
Theorem teme_to_tirs_rotates_and_subtracts_wxr :
  forall (teme_coord : Coord Time) (tirs_frame : Frame Time) (v_teme : Vec3),
    diff_s (data teme_coord) = Some v_teme ->
    let theta := _gmst82_angle (obstime (frame teme_coord)) in
    let Rz := rotation_matrix theta AxisZ in
    let r_tirs := mat_vec Rz (xyz (data teme_coord)) in
    let v_tirs := vsub (mat_vec Rz v_teme) (vcross _w r_tirs) in
    _w = mkVec3 0 0 7.292115e-5 /\
    teme_to_tirs teme_coord tirs_frame
      = Ok (mkCoord tirs_frame (mkRep r_tirs (Some v_tirs) None)) /\
    r_tirs = mkVec3 (cos theta * vx (xyz (data teme_coord))
                     + sin theta * vy (xyz (data teme_coord)))
                    (- sin theta * vx (xyz (data teme_coord))
                     + cos theta * vy (xyz (data teme_coord)))
                    (vz (xyz (data teme_coord))) /\
    v_tirs = mkVec3 (cos theta * vx v_teme + sin theta * vy v_teme
                     + 7.292115e-5 * vy r_tirs)
                    (- sin theta * vx v_teme + cos theta * vy v_teme
                     - 7.292115e-5 * vx r_tirs)
                    (vz v_teme).
Proof.
  intros c f v Hv theta Rz r_tirs v_tirs.
  split; [reflexivity |].
  split; [exact (teme_to_tirs_value c f v Hv) |].
  subst v_tirs r_tirs Rz. unfold rotation_matrix, _w.
  destruct (xyz (data c)) as [x y z], v as [a b d].
  split; vec_split; ring.
Qed.

(** C2. On a coordinate that carries a velocity, TIRS to TEME rotates the
    position by the transpose of the z-rotation by the sidereal angle (which
    is the z-rotation by the opposite angle), and returns the velocity
    [Rt . (v_tirs + w x r_tirs)]: the offset is computed from the TIRS
    position as it came in and is added before the rotation. *)
Theorem tirs_to_teme_adds_wxr_then_rotates_back :
  forall (tirs_coord : Coord Time) (teme_frame : Frame Time) (v_tirs : Vec3),
    diff_s (data tirs_coord) = Some v_tirs ->
    let theta := _gmst82_angle (obstime (frame tirs_coord)) in
    let Rt := transpose (rotation_matrix theta AxisZ) in
    let r_tirs := xyz (data tirs_coord) in
    tirs_to_teme tirs_coord teme_frame
      = Ok (mkCoord teme_frame
              (mkRep (mat_vec Rt r_tirs)
                     (Some (mat_vec Rt (vadd v_tirs (vcross _w r_tirs))))
                     None)) /\
    Rt = rotation_matrix (- theta) AxisZ.
Proof.
  intros c f v Hv theta Rt r_tirs.
  split; [exact (tirs_to_teme_value c f v Hv) |].
  apply rotation_matrix_transpose.
Qed.

(** C4. TIRS to ITRS is registered as a matrix edge. At every instant its
    matrix is the polar-motion matrix [pom00 xp yp sp] built from the pole
    offsets and s' at the coordinate's instant; the matrix is orthogonal; the
    edge applies it to the position and, unchanged, to the velocity, with no
    further term; ITRS to TIRS is the matrix edge of its transpose. *)
Theorem tirs_itrs_is_polar_motion_matrix_edge :
  forall (coord : Coord Time) (toframe : Frame Time),
    let t := obstime (frame coord) in
    let R_pm := pom00 (fst (get_polar_motion t)) (snd (get_polar_motion t))
                      (erfa_sp00 (fst (get_jd12 t TT)) (snd (get_jd12 t TT))) in
    registered TIRS ITRS (DynamicMatrixTransform tirs_to_itrs) /\
    registered ITRS TIRS (DynamicMatrixTransform itrs_to_tirs) /\
    tirs_to_itrs coord toframe = R_pm /\
    itrs_to_tirs coord toframe = transpose R_pm /\
    orthogonal R_pm /\
    apply_edge (DynamicMatrixTransform tirs_to_itrs) coord toframe
      = Ok (mkCoord toframe
              (mkRep (mat_vec R_pm (xyz (data coord)))
                     (option_map (mat_vec R_pm) (diff_s (data coord)))
                     None)) /\
    apply_edge (DynamicMatrixTransform itrs_to_tirs) coord toframe
      = Ok (mkCoord toframe
              (mkRep (mat_vec (transpose R_pm) (xyz (data coord)))
                     (option_map (mat_vec (transpose R_pm)) (diff_s (data coord)))
                     None)).
Proof.
  intros coord toframe t R_pm.
  assert (Hm : _polar_mot_matrix t = R_pm) by apply _polar_mot_matrix_pom00.
  repeat split.
  - unfold registered, frame_transform_graph. simpl. auto.
  - unfold registered, frame_transform_graph. simpl. auto.
  - exact Hm.
  - unfold itrs_to_tirs. fold t. rewrite Hm. reflexivity.
  - apply pom00_orthogonal.
  - apply pom00_orthogonal.
  - unfold apply_edge, apply_matrix_edge, realize_frame, tirs_to_itrs.
    fold t. rewrite Hm. reflexivity.
  - unfold apply_edge, apply_matrix_edge, realize_frame, itrs_to_tirs.
    fold t. rewrite Hm. reflexivity.
Qed.

Lemma registered_cases (a b : FrameClass) (e : TransformEdge Time) :
  registered a b e ->
  (a = TIRS /\ b = ITRS /\ e = DynamicMatrixTransform tirs_to_itrs) \/
  (a = ITRS /\ b = TIRS /\ e = DynamicMatrixTransform itrs_to_tirs) \/
  (a = TEME /\ b = TIRS /\ e = FunctionTransform teme_to_tirs) \/
  (a = TIRS /\ b = TEME /\ e = FunctionTransform tirs_to_teme).
Proof.
  unfold registered, frame_transform_graph. simpl.
  intros [E | [E | [E | [E | []]]]]; inversion E; subst; tauto.
Qed.

(** *** States without velocity *)

(** C5 (amended). A state without velocity goes through the matrix edges
    (TIRS to ITRS and back): the position is rotated and the result has no
    velocity either. The function edges (TEME to TIRS and back) read the
    velocity unconditionally: on such a state they raise and return nothing. *)
Theorem absent_velocity_passes_matrix_edges_only :
  forall (a b : FrameClass) (e : TransformEdge Time)
         (s : Coord Time) (toframe : Frame Time),
    registered a b e ->
    diff_s (data s) = None ->
    match e with
    | DynamicMatrixTransform matrix_func =>
        apply_edge e s toframe
        = Ok (mkCoord toframe
                (mkRep (mat_vec (matrix_func s toframe) (xyz (data s))) None None))
    | FunctionTransform _ =>
        apply_edge e s toframe
        = Raise (ValueError
            "Frame has no associated velocity (Differential) data information.")
    end.
Proof.
  intros a b e s toframe Hreg Hv.
  destruct (registered_cases _ _ _ Hreg) as [(_ & _ & ->) | [(_ & _ & ->) |
    [(_ & _ & ->) | (_ & _ & ->)]]].
  - unfold apply_edge, apply_matrix_edge, realize_frame. rewrite Hv. reflexivity.
  - unfold apply_edge, apply_matrix_edge, realize_frame. rewrite Hv. reflexivity.
  - unfold apply_edge, teme_to_tirs, velocity. rewrite Hv. reflexivity.
  - unfold apply_edge, tirs_to_teme, velocity. rewrite Hv. reflexivity.
Qed.

End FrameFacts.

(** ** The transforms on the example state *)

Lemma teme_to_tirs_on_example :
  diff_s (data coord_teme) = Some v_TEME_true /\
  teme_to_tirs (eop := fixed_orientation) coord_teme tirs_at_output_time
  = Ok (mkCoord tirs_at_output_time
          (mkRep (mat_vec (rotation_matrix 3.52 AxisZ) r_TEME_true)
                 (Some (vsub (mat_vec (rotation_matrix 3.52 AxisZ) v_TEME_true)
                             (vcross _w (mat_vec (rotation_matrix 3.52 AxisZ) r_TEME_true))))
                 None)).
Proof.
  split; [reflexivity |].
  exact (proj1 (proj2
    (teme_to_tirs_rotates_and_subtracts_wxr (eop := fixed_orientation)
       coord_teme tirs_at_output_time v_TEME_true eq_refl))).
Defined.

Lemma tirs_to_teme_on_example :
  diff_s (data coord_tirs) = Some v_TEME_true /\
  tirs_to_teme (eop := fixed_orientation) coord_tirs (frame coord_teme)
  = Ok (mkCoord (frame coord_teme)
          (mkRep (mat_vec (transpose (rotation_matrix 3.52 AxisZ)) r_TEME_true)
                 (Some (mat_vec (transpose (rotation_matrix 3.52 AxisZ))
                                (vadd v_TEME_true (vcross _w r_TEME_true))))
                 None)).
Proof.
  split; [reflexivity |].
  exact (proj1
    (tirs_to_teme_adds_wxr_then_rotates_back (eop := fixed_orientation)
       coord_tirs (frame coord_teme) v_TEME_true eq_refl)).
Defined.

Lemma position_only_through_tirs_to_itrs :
  registered (eop := fixed_orientation) TIRS ITRS
    (DynamicMatrixTransform (tirs_to_itrs (eop := fixed_orientation))) /\
  diff_s (data coord_tirs_position_only) = None /\
  apply_edge (DynamicMatrixTransform (tirs_to_itrs (eop := fixed_orientation)))
    coord_tirs_position_only itrs_at_output_time
  = Ok (mkCoord itrs_at_output_time
          (mkRep (mat_vec (pom00 5e-7 2e-6 (-1e-10)) r_TEME_true) None None)).
Proof.
  assert (Hreg : registered (eop := fixed_orientation) TIRS ITRS
                   (DynamicMatrixTransform (tirs_to_itrs (eop := fixed_orientation))))
    by (left; reflexivity).
  split; [exact Hreg |]. split; [reflexivity |].
  exact (absent_velocity_passes_matrix_edges_only (eop := fixed_orientation) TIRS ITRS
           (DynamicMatrixTransform (tirs_to_itrs (eop := fixed_orientation)))
           coord_tirs_position_only itrs_at_output_time Hreg eq_refl).
Defined.

(** The state without velocity makes the registered TEME to TIRS edge raise. *)
Lemma teme_to_tirs_raises_without_velocity :
  registered (eop := fixed_orientation) TEME TIRS
    (FunctionTransform (teme_to_tirs (eop := fixed_orientation))) /\
  diff_s (data coord_teme_position_only) = None /\
  apply_edge (FunctionTransform (teme_to_tirs (eop := fixed_orientation)))
    coord_teme_position_only tirs_at_output_time
  = Raise (ValueError
      "Frame has no associated velocity (Differential) data information.").
Proof.
  split; [right; right; left; reflexivity |].
  split; reflexivity.
Qed.

(** ** The event loops *)

Module SunEventsFacts.

Import Floats.
Import SunEvents.

(** IEEE comparisons against zero: a value below zero, or equal to zero
    (either sign), is not above zero. NaN is neither. *)
Lemma ltb_zero_asym (d : float) : (d <? 0)%float = true -> (0 <? d)%float = false.
Proof.
  rewrite !ltb_spec.
  replace (Prim2SF 0%float) with (S754_zero false) by reflexivity.
  destruct (Prim2SF d) as [sg | sg | | sg m e]; try destruct sg; cbn; congruence.
Qed.

Lemma eqb_zero_not_above (d : float) : (d =? 0)%float = true -> (0 <? d)%float = false.
Proof.
  rewrite eqb_spec, ltb_spec.
  replace (Prim2SF 0%float) with (S754_zero false) by reflexivity.
  destruct (Prim2SF d) as [sg | sg | | sg m e]; try destruct sg; cbn; congruence.
Qed.

(** A loop that went through its first events goes on with the rest; a loop
    that raised stays where it raised. *)
Lemma for_each_finished_app (body : float -> Cell unit) (before after : list float)
    (st st1 : RiseSetState) :
  for_each body before st = (st1, Some tt) ->
  for_each body (before ++ after) st = for_each body after st1.
Proof.
  revert st. induction before as [| e rest IH]; intros st Hrun.
  - cbn in Hrun. injection Hrun as <-. reflexivity.
  - cbn [for_each app] in *. unfold and_then in *.
    destruct (body e st) as [st' [[] |]]; [apply IH; exact Hrun | discriminate].
Qed.

Lemma for_each_raised_app (body : float -> Cell unit) (before after : list float)
    (st st1 : RiseSetState) :
  for_each body before st = (st1, None) ->
  for_each body (before ++ after) st = (st1, None).
Proof.
  revert st. induction before as [| e rest IH]; intros st Hrun.
  - discriminate.
  - cbn [for_each app] in *. unfold and_then in *.
    destruct (body e st) as [st' [[] |]]; [apply IH; exact Hrun | exact Hrun].
Qed.

Lemma for_each_step (body : float -> Cell unit) (before after : list float)
    (t : float) (st st1 st2 : RiseSetState) :
  for_each body before st = (st1, Some tt) ->
  body t st1 = (st2, Some tt) ->
  for_each body (before ++ t :: after) st = for_each body after st2.
Proof.
  intros Hbefore Hbody. rewrite (for_each_finished_app _ _ _ _ _ Hbefore).
  cbn [for_each]. unfold and_then. rewrite Hbody. reflexivity.
Qed.

Lemma for_each_stop (body : float -> Cell unit) (before after : list float)
    (t : float) (st st1 st2 : RiseSetState) :
  for_each body before st = (st1, Some tt) ->
  body t st1 = (st2, None) ->
  for_each body (before ++ t :: after) st = (st2, None).
Proof.
  intros Hbefore Hbody. rewrite (for_each_finished_app _ _ _ _ _ Hbefore).
  cbn [for_each]. unfold and_then. rewrite Hbody. reflexivity.
Qed.

Section LoopFacts.

Variable sun_alt_interpolator : float -> float.
Variable sun_interpolator_deriv_alt : float -> float.
Variable unix_value_accepted : float -> bool.
Variable datetime_representable : float -> bool.

Local Abbreviation printable_root := (printable unix_value_accepted datetime_representable).
Local Abbreviation rise_set_body' :=
  (rise_set_body sun_interpolator_deriv_alt unix_value_accepted datetime_representable).
Local Abbreviation min_max_body' :=
  (min_max_body sun_alt_interpolator unix_value_accepted datetime_representable).
Local Abbreviation rise_set_loop' :=
  (rise_set_loop sun_interpolator_deriv_alt unix_value_accepted datetime_representable).
Local Abbreviation min_max_loop' :=
  (min_max_loop sun_alt_interpolator unix_value_accepted datetime_representable).

(** What one pass of the first loop does on a root it can print. *)
Lemma rise_set_body_printable (t : float) (st : RiseSetState) :
  printable_root t ->
  rise_set_body' t st
  = (if (0 <? sun_interpolator_deriv_alt t)%float
     then mkRiseSet (Some t) (sun_set_time st)
            (stdout st ++ [Text "Sunrise time:"; TimeOf t])
     else mkRiseSet (sun_rise_time st) (Some t)
            (stdout st ++ [Text "Sunset time:"; TimeOf t]),
     Some tt).
Proof.
  intros [Hacc Hrep].
  unfold rise_set_body, and_then, Time_unix, to_datetime, set_sun_rise_time,
    set_sun_set_time, print.
  destruct (0 <? sun_interpolator_deriv_alt t)%float;
    rewrite Hacc; cbn; rewrite Hrep, <- app_assoc; reflexivity.
Qed.

(** What one pass of the second loop does on a root it can print. *)
Lemma min_max_body_printable (t : float) (st : RiseSetState) :
  printable_root t ->
  min_max_body' t st
  = (mkRiseSet (sun_rise_time st) (sun_set_time st)
       (stdout st
        ++ [Text (if (0 <? sun_alt_interpolator t)%float
                  then "Sun highest time:" else "Sun lowest time:");
            TimeOf t;
            AltitudeOf (sun_alt_interpolator t)]),
     Some tt).
Proof.
  intros [Hacc Hrep].
  unfold min_max_body, and_then, Time_unix, to_datetime, print.
  destruct (0 <? sun_alt_interpolator t)%float;
    cbn; rewrite Hacc, Hrep; cbn; rewrite <- !app_assoc; reflexivity.
Qed.

(** A root that [Time] refuses: the first loop raises before it assigns or
    prints anything; the second loop has printed its header by then. *)
Lemma rise_set_body_refused (t : float) (st : RiseSetState) :
  unix_value_accepted t = false -> rise_set_body' t st = (st, None).
Proof.
  intros Hacc. unfold rise_set_body, and_then, Time_unix.
  destruct (0 <? sun_interpolator_deriv_alt t)%float; rewrite Hacc; reflexivity.
Qed.

Lemma min_max_body_refused (t : float) (st : RiseSetState) :
  unix_value_accepted t = false ->
  min_max_body' t st
  = (mkRiseSet (sun_rise_time st) (sun_set_time st)
       (stdout st
        ++ [Text (if (0 <? sun_alt_interpolator t)%float
                  then "Sun highest time:" else "Sun lowest time:")]),
     None).
Proof.
  intros Hacc. unfold min_max_body, and_then, Time_unix, print.
  destruct (0 <? sun_alt_interpolator t)%float; cbn; rewrite Hacc; reflexivity.
Qed.

(** A root that [Time] accepts and [to_datetime] cannot render: the first
    loop has assigned its variable and printed the header when it raises. *)
Lemma rise_set_body_unrenderable (t : float) (st : RiseSetState) :
  unix_value_accepted t = true ->
  datetime_representable t = false ->
  rise_set_body' t st
  = (if (0 <? sun_interpolator_deriv_alt t)%float
     then mkRiseSet (Some t) (sun_set_time st) (stdout st ++ [Text "Sunrise time:"])
     else mkRiseSet (sun_rise_time st) (Some t) (stdout st ++ [Text "Sunset time:"]),
     None).
Proof.
  intros Hacc Hrep.
  unfold rise_set_body, and_then, Time_unix, to_datetime, set_sun_rise_time,
    set_sun_set_time, print.
  destruct (0 <? sun_interpolator_deriv_alt t)%float;
    rewrite Hacc; cbn; rewrite Hrep; reflexivity.
Qed.

(** The whole of a loop over roots that can all be printed. *)
Lemma rise_set_loop_printable (events : list float) (st : RiseSetState) :
  Forall printable_root events ->
  rise_set_loop' events st
  = (mkRiseSet
       (match rev (filter (fun t => (0 <? sun_interpolator_deriv_alt t)%float) events) with
        | t :: _ => Some t
        | [] => sun_rise_time st
        end)
       (match rev (filter (fun t => negb (0 <? sun_interpolator_deriv_alt t)%float)
                          events) with
        | t :: _ => Some t
        | [] => sun_set_time st
        end)
       (stdout st
        ++ flat_map
             (fun t =>
                [Text (if (0 <? sun_interpolator_deriv_alt t)%float
                       then "Sunrise time:" else "Sunset time:");
                 TimeOf t])
             events),
     Some tt).
Proof.
  unfold rise_set_loop. revert st.
  induction events as [| t rest IH]; intros st Hall.
  - cbn. rewrite app_nil_r. destruct st; reflexivity.
  - inversion Hall as [| ? ? Ht Hrest]; subst.
    cbn [for_each]. unfold and_then at 1.
    rewrite (rise_set_body_printable t st Ht), (IH _ Hrest).
    cbn [filter flat_map].
    destruct (0 <? sun_interpolator_deriv_alt t)%float;
      cbn [negb rev sun_rise_time sun_set_time stdout];
      rewrite <- app_assoc; cbn [app]; f_equal; f_equal.
    + destruct (rev (filter (fun t0 => (0 <? sun_interpolator_deriv_alt t0)%float) rest));
        reflexivity.
    + destruct (rev (filter (fun t0 => negb (0 <? sun_interpolator_deriv_alt t0)%float)
                            rest)); reflexivity.
Qed.

Lemma min_max_loop_printable (events : list float) (st : RiseSetState) :
  Forall printable_root events ->
  min_max_loop' events st
  = (mkRiseSet (sun_rise_time st) (sun_set_time st)
       (stdout st
        ++ flat_map
             (fun t =>
                [Text (if (0 <? sun_alt_interpolator t)%float
                       then "Sun highest time:" else "Sun lowest time:");
                 TimeOf t;
                 AltitudeOf (sun_alt_interpolator t)])
             events),
     Some tt).
Proof.
  unfold min_max_loop. revert st.
  induction events as [| t rest IH]; intros st Hall.
  - cbn. rewrite app_nil_r. destruct st; reflexivity.
  - inversion Hall as [| ? ? Ht Hrest]; subst.
    cbn [for_each]. unfold and_then at 1.
    rewrite (min_max_body_printable t st Ht), (IH _ Hrest).
    cbn [flat_map sun_rise_time sun_set_time stdout].
    rewrite <- app_assoc. reflexivity.
Qed.

End LoopFacts.



(** *** The constructor's guard *)

Lemma strictly_increasing_breaks (times : list float) (i : nat) (a b : float) :
  nth_error times i = Some a ->
  nth_error times (S i) = Some b ->
  (a <? b)%float = false ->
  strictly_increasing times = false.
Proof.
  revert times. induction i as [| i IH]; intros times Ha Hb Hlt.
  - destruct times as [| x [| y rest]]; simpl in Ha, Hb; try discriminate.
    injection Ha as ->. injection Hb as ->. simpl. now rewrite Hlt.
  - destruct times as [| x [| y rest]]; simpl in Ha, Hb; try discriminate.
    change (strictly_increasing (x :: y :: rest))
      with (andb (x <? y)%float (strictly_increasing (y :: rest))).
    rewrite (IH (y :: rest) Ha Hb Hlt). apply Bool.andb_false_r.
Qed.

(** C8. Building the interpolant from time samples that are not strictly
    increasing (two neighbouring samples [a], [b] without [a < b]) fails with
    [NonMonotonicSamplesError]: construction itself returns the error, and no
    interpolant exists that could be evaluated. *)
Theorem non_monotonic_samples_fail_at_construction :
  forall (times values : list float) (i : nat) (a b : float),
    nth_error times i = Some a ->
    nth_error times (S i) = Some b ->
    (a <? b)%float = false ->
    make_interpolant times values = inl NonMonotonicSamplesError.
Proof.
  intros times values i a b Ha Hb Hlt. unfold make_interpolant.
  rewrite (strictly_increasing_breaks times i a b Ha Hb Hlt). reflexivity.
Qed.

(** *** The loops on the toy curves *)

Example rise_set_loop_on_cubic :
  rise_set_loop cubic_deriv finite_value within_datetime_years cubic_roots initial_state
  = (mkRiseSet (Some 0x1.bb67ae8584caap+0%float) (Some 0%float)
       [Text "Sunrise time:"; TimeOf (-0x1.bb67ae8584caap+0)%float;
        Text "Sunset time:"; TimeOf 0%float;
        Text "Sunrise time:"; TimeOf 0x1.bb67ae8584caap+0%float],
     Some tt).
Proof. vm_compute. reflexivity. Qed.

Example min_max_loop_on_cubic :
  min_max_loop cubic_alt finite_value within_datetime_years cubic_deriv_roots
    initial_state
  = (mkRiseSet None None
       [Text "Sun highest time:"; TimeOf (-1)%float; AltitudeOf 2%float;
        Text "Sun lowest time:"; TimeOf 1%float; AltitudeOf (-2)%float],
     Some tt).
Proof. vm_compute. reflexivity. Qed.

(** A root that is not a number ends the first loop where it stands: the
    root after it is never looked at. *)
Example rise_set_loop_stops_at_nan :
  rise_set_loop cubic_deriv finite_value within_datetime_years
    [0%float; nan; 5%float] initial_state
  = (mkRiseSet None (Some 0%float) [Text "Sunset time:"; TimeOf 0%float], None).
Proof. vm_compute. reflexivity. Qed.



Lemma samples_1_05_2_are_rejected :
  nth_error [1%float; 0.5%float; 2%float] 0 = Some 1%float /\
  nth_error [1%float; 0.5%float; 2%float] 1 = Some 0.5%float /\
  (1 <? 0.5)%float = false /\
  make_interpolant [1%float; 0.5%float; 2%float] [10%float; 20%float; 30%float]
  = inl NonMonotonicSamplesError.
Proof.
  split; [reflexivity |]. split; [reflexivity |]. split; [reflexivity |].
  exact (non_monotonic_samples_fail_at_construction
           [1%float; 0.5%float; 2%float] [10%float; 20%float; 30%float]
           0 1%float 0.5%float eq_refl eq_refl eq_refl).
Defined.

(** Strictly increasing samples are accepted. *)
Example samples_1_2_3_are_accepted :
  make_interpolant [1%float; 2%float; 3%float] [10%float; 20%float; 30%float]
  = inr (mkInterpolant [1%float; 2%float; 3%float] [10%float; 20%float; 30%float]).
Proof. reflexivity. Qed.

End SunEventsFacts.

(** ** What the event loops leave behind *)

Module SunEventsProperties.

Import Floats.
Import SunEvents.

Lemma printed_times_app (a b : list Line) :
  printed_times (a ++ b) = printed_times a ++ printed_times b.
Proof. unfold printed_times. apply flat_map_app. Qed.

Lemma printed_altitudes_app (a b : list Line) :
  printed_altitudes (a ++ b) = printed_altitudes a ++ printed_altitudes b.
Proof. unfold printed_altitudes. apply flat_map_app. Qed.

Lemma printed_texts_app (a b : list Line) :
  printed_texts (a ++ b) = printed_texts a ++ printed_texts b.
Proof. unfold printed_texts. apply flat_map_app. Qed.

Section Observed.

Variable sun_alt_interpolator : float -> float.
Variable sun_interpolator_deriv_alt : float -> float.

Lemma rise_set_lines_times (events : list float) :
  printed_times
    (flat_map
       (fun t =>
          [Text (if (0 <? sun_interpolator_deriv_alt t)%float
                 then "Sunrise time:" else "Sunset time:");
           TimeOf t]) events)
  = events.
Proof.
  induction events as [| t rest IH]; [reflexivity |].
  cbn [flat_map]. rewrite printed_times_app, IH. reflexivity.
Qed.

Lemma rise_set_lines_texts (events : list float) :
  printed_texts
    (flat_map
       (fun t =>
          [Text (if (0 <? sun_interpolator_deriv_alt t)%float
                 then "Sunrise time:" else "Sunset time:");
           TimeOf t]) events)
  = map (fun t => (if (0 <? sun_interpolator_deriv_alt t)%float
                   then "Sunrise time:" else "Sunset time:")%string) events.
Proof.
  induction events as [| t rest IH]; [reflexivity |].
  cbn [flat_map map]. rewrite printed_texts_app, IH. reflexivity.
Qed.

Lemma min_max_lines_times (events : list float) :
  printed_times
    (flat_map
       (fun t =>
          [Text (if (0 <? sun_alt_interpolator t)%float
                 then "Sun highest time:" else "Sun lowest time:");
           TimeOf t;
           AltitudeOf (sun_alt_interpolator t)]) events)
  = events.
Proof.
  induction events as [| t rest IH]; [reflexivity |].
  cbn [flat_map]. rewrite printed_times_app, IH. reflexivity.
Qed.

Lemma min_max_lines_altitudes (events : list float) :
  printed_altitudes
    (flat_map
       (fun t =>
          [Text (if (0 <? sun_alt_interpolator t)%float
                 then "Sun highest time:" else "Sun lowest time:");
           TimeOf t;
           AltitudeOf (sun_alt_interpolator t)]) events)
  = map sun_alt_interpolator events.
Proof.
  induction events as [| t rest IH]; [reflexivity |].
  cbn [flat_map map]. rewrite printed_altitudes_app, IH. reflexivity.
Qed.

Lemma min_max_lines_texts (events : list float) :
  printed_texts
    (flat_map
       (fun t =>
          [Text (if (0 <? sun_alt_interpolator t)%float
                 then "Sun highest time:" else "Sun lowest time:");
           TimeOf t;
           AltitudeOf (sun_alt_interpolator t)]) events)
  = map (fun t => (if (0 <? sun_alt_interpolator t)%float
                   then "Sun highest time:" else "Sun lowest time:")%string) events.
Proof.
  induction events as [| t rest IH]; [reflexivity |].
  cbn [flat_map map]. rewrite printed_texts_app, IH. reflexivity.
Qed.

End Observed.

(** X7. When [Time] accepts and [to_datetime] can render every root, both
    loops run to the end and report every root once, in the order [roots()]
    gave them: the instants printed are what was printed before followed by
    exactly the list of roots, the first loop prints one header per root, the
    altitudes printed by the second loop are the interpolated altitudes at
    the roots in the same order, and the second loop assigns neither
    variable. *)
Theorem loops_report_every_root_in_order :
  forall (sun_alt_interpolator sun_interpolator_deriv_alt : float -> float)
         (unix_value_accepted datetime_representable : float -> bool)
         (events : list float) (st : RiseSetState),
    Forall (printable unix_value_accepted datetime_representable) events ->
    (exists st',
       rise_set_loop sun_interpolator_deriv_alt unix_value_accepted
         datetime_representable events st = (st', Some tt) /\
       printed_times (stdout st') = printed_times (stdout st) ++ events /\
       List.length (printed_texts (stdout st'))
       = (List.length (printed_texts (stdout st)) + List.length events)%nat) /\
    (exists st',
       min_max_loop sun_alt_interpolator unix_value_accepted
         datetime_representable events st = (st', Some tt) /\
       printed_times (stdout st') = printed_times (stdout st) ++ events /\
       printed_altitudes (stdout st')
       = printed_altitudes (stdout st) ++ map sun_alt_interpolator events /\
       sun_rise_time st' = sun_rise_time st /\
       sun_set_time st' = sun_set_time st).
Proof.
  intros alt deriv accepted representable events st Hall. split.
  - eexists. split; [apply SunEventsFacts.rise_set_loop_printable; exact Hall |].
    cbn [stdout]. rewrite printed_times_app, printed_texts_app.
    rewrite rise_set_lines_times, rise_set_lines_texts.
    rewrite List.length_app, List.length_map. split; reflexivity.
  - eexists. split; [apply SunEventsFacts.min_max_loop_printable; exact Hall |].
    cbn [stdout sun_rise_time sun_set_time].
    rewrite printed_times_app, printed_altitudes_app.
    rewrite min_max_lines_times, min_max_lines_altitudes.
    repeat split; reflexivity.
Qed.

(** X8. The variables keep the last assignment. When every root can be
    printed, the first loop ends with [sun_rise_time] holding the last root
    whose derivative is above zero and [sun_set_time] the last root whose
    derivative is not; a variable for which there is no such root is left as
    it was (unassigned in a fresh run). *)
Theorem rise_and_set_times_are_the_last_of_their_kind :
  forall (sun_interpolator_deriv_alt : float -> float)
         (unix_value_accepted datetime_representable : float -> bool)
         (rise_set_events : list float) (st : RiseSetState),
    Forall (printable unix_value_accepted datetime_representable) rise_set_events ->
    exists st',
      rise_set_loop sun_interpolator_deriv_alt unix_value_accepted
        datetime_representable rise_set_events st = (st', Some tt) /\
      sun_rise_time st'
      = match rev (filter (fun t => (0 <? sun_interpolator_deriv_alt t)%float)
                          rise_set_events) with
        | t :: _ => Some t
        | [] => sun_rise_time st
        end /\
      sun_set_time st'
      = match rev (filter (fun t => negb (0 <? sun_interpolator_deriv_alt t)%float)
                          rise_set_events) with
        | t :: _ => Some t
        | [] => sun_set_time st
        end.
Proof.
  intros deriv accepted representable events st Hall.
  eexists. split; [apply SunEventsFacts.rise_set_loop_printable; exact Hall |].
  split; reflexivity.
Qed.

(** X9. The second loop tells highest from lowest by the sign of the
    altitude only. When every root of the derivative can be printed and the
    test [altitude > 0] has the same outcome at each of them (the Sun never
    sets, or never rises), every one of them gets the same header, the true
    minimum or maximum included. *)
Theorem extrema_share_a_label_when_the_sign_never_changes :
  forall (sun_alt_interpolator : float -> float)
         (unix_value_accepted datetime_representable : float -> bool)
         (min_max_events : list float) (st : RiseSetState) (above : bool),
    Forall (printable unix_value_accepted datetime_representable) min_max_events ->
    (forall t, In t min_max_events -> (0 <? sun_alt_interpolator t)%float = above) ->
    exists st',
      min_max_loop sun_alt_interpolator unix_value_accepted
        datetime_representable min_max_events st = (st', Some tt) /\
      printed_texts (stdout st')
      = printed_texts (stdout st)
        ++ map (fun _ => label (if above then local_max else local_min)) min_max_events.
Proof.
  intros alt accepted representable events st above Hall Hsign.
  eexists. split; [apply SunEventsFacts.min_max_loop_printable; exact Hall |].
  cbn [stdout]. rewrite printed_texts_app, min_max_lines_texts. f_equal.
  apply map_ext_in. intros t Ht. rewrite (Hsign t Ht). destruct above; reflexivity.
Qed.

(** X12. A root that [Time] refuses ends the loop, and the roots after it
    are never processed. With the roots before it printable, the first loop
    stops in the state those roots left, without any line or assignment for
    the refused root; the second loop has printed the header of the refused
    root, chosen by the sign of the altitude there, and nothing more. *)
Theorem refused_root_ends_the_loops :
  forall (sun_alt_interpolator sun_interpolator_deriv_alt : float -> float)
         (unix_value_accepted datetime_representable : float -> bool)
         (good rest : list float) (bad : float) (st : RiseSetState),
    Forall (printable unix_value_accepted datetime_representable) good ->
    unix_value_accepted bad = false ->
    rise_set_loop sun_interpolator_deriv_alt unix_value_accepted
      datetime_representable (good ++ bad :: rest) st
    = (fst (rise_set_loop sun_interpolator_deriv_alt unix_value_accepted
              datetime_representable good st),
       None) /\
    min_max_loop sun_alt_interpolator unix_value_accepted
      datetime_representable (good ++ bad :: rest) st
    = (let st1 := fst (min_max_loop sun_alt_interpolator unix_value_accepted
                         datetime_representable good st) in
       mkRiseSet (sun_rise_time st1) (sun_set_time st1)
         (stdout st1
          ++ [Text (label (if (0 <? sun_alt_interpolator bad)%float
                           then local_max else local_min))]),
       None).
Proof.
  intros alt deriv accepted representable good rest bad st Hall Hbad. split.
  - pose proof (SunEventsFacts.rise_set_loop_printable deriv accepted representable
                  good st Hall) as Hgood.
    rewrite Hgood. cbn [fst].
    apply (SunEventsFacts.for_each_stop _ good rest bad st _ _ Hgood).
    apply SunEventsFacts.rise_set_body_refused. exact Hbad.
  - pose proof (SunEventsFacts.min_max_loop_printable alt accepted representable
                  good st Hall) as Hgood.
    rewrite Hgood. cbn [fst].
    apply (SunEventsFacts.for_each_stop _ good rest bad st _ _ Hgood).
    rewrite (SunEventsFacts.min_max_body_refused alt accepted representable bad _ Hbad).
    destruct (0 <? alt bad)%float; reflexivity.
Qed.

Lemma cubic_roots_are_printable :
  Forall (printable finite_value within_datetime_years) cubic_roots.
Proof. repeat constructor. Qed.

Lemma cubic_deriv_roots_are_printable :
  Forall (printable finite_value within_datetime_years) cubic_deriv_roots.
Proof. repeat constructor. Qed.

Lemma cubic_roots_reported_in_order :
  Forall (printable finite_value within_datetime_years) cubic_roots /\
  exists st',
    rise_set_loop cubic_deriv finite_value within_datetime_years cubic_roots
      initial_state = (st', Some tt) /\
    printed_times (stdout st') = cubic_roots.
Proof.
  split; [exact cubic_roots_are_printable |].
  destruct (proj1 (loops_report_every_root_in_order cubic_alt cubic_deriv
                     finite_value within_datetime_years cubic_roots initial_state
                     cubic_roots_are_printable))
    as (st' & Hrun & Htimes & _).
  exists st'. split; [exact Hrun | exact Htimes].
Defined.

Lemma cubic_rise_and_set_times :
  Forall (printable finite_value within_datetime_years) cubic_roots /\
  exists st',
    rise_set_loop cubic_deriv finite_value within_datetime_years cubic_roots
      initial_state = (st', Some tt) /\
    sun_rise_time st' = Some 0x1.bb67ae8584caap+0%float /\
    sun_set_time st' = Some 0%float.
Proof.
  split; [exact cubic_roots_are_printable |].
  exact (rise_and_set_times_are_the_last_of_their_kind cubic_deriv
           finite_value within_datetime_years cubic_roots initial_state
           cubic_roots_are_printable).
Defined.

Lemma midnight_sun_has_two_highest_points :
  Forall (printable finite_value within_datetime_years) cubic_deriv_roots /\
  (forall t, In t cubic_deriv_roots -> (0 <? midnight_sun_alt t)%float = true) /\
  exists st',
    min_max_loop midnight_sun_alt finite_value within_datetime_years
      cubic_deriv_roots initial_state = (st', Some tt) /\
    printed_texts (stdout st') = ["Sun highest time:"; "Sun highest time:"]%string.
Proof.
  assert (Hup : forall t, In t cubic_deriv_roots ->
                          (0 <? midnight_sun_alt t)%float = true).
  { intros t [<- | [<- | []]]; reflexivity. }
  split; [exact cubic_deriv_roots_are_printable |]. split; [exact Hup |].
  exact (extrema_share_a_label_when_the_sign_never_changes midnight_sun_alt
           finite_value within_datetime_years cubic_deriv_roots initial_state true
           cubic_deriv_roots_are_printable Hup).
Defined.

Lemma nan_root_ends_the_loops :
  Forall (printable finite_value within_datetime_years) [0%float] /\
  finite_value nan = false /\
  rise_set_loop cubic_deriv finite_value within_datetime_years
    [0%float; nan; 5%float] initial_state
  = (mkRiseSet None (Some 0%float) [Text "Sunset time:"; TimeOf 0%float], None) /\
  min_max_loop cubic_alt finite_value within_datetime_years
    [0%float; nan; 5%float] initial_state
  = (mkRiseSet None None
       [Text "Sun lowest time:"; TimeOf 0%float; AltitudeOf 0%float;
        Text "Sun lowest time:"],
     None).
Proof.
  assert (Hgood : Forall (printable finite_value within_datetime_years) [0%float])
    by (repeat constructor).
  split; [exact Hgood |]. split; [reflexivity |].
  exact (refused_root_ends_the_loops cubic_alt cubic_deriv
           finite_value within_datetime_years [0%float] [5%float] nan initial_state
           Hgood eq_refl).
Defined.

End SunEventsProperties.

(** ** The spin axis, and chains on states without velocity *)

Section AxisAndChains.

Context {Time : Type} {eop : EarthOrientationProvider Time}.

(** X10. TEME to TIRS and TIRS to TEME turn about the z axis only: the z
    component of the position and the z component of the velocity come out
    as they went in. *)
Theorem teme_tirs_keep_z_components :
  forall (s : Coord Time) (toframe : Frame Time) (v : Vec3),
    diff_s (data s) = Some v ->
    (exists out v_out,
       teme_to_tirs s toframe = Ok out /\
       diff_s (data out) = Some v_out /\
       vz (xyz (data out)) = vz (xyz (data s)) /\
       vz v_out = vz v) /\
    (exists out v_out,
       tirs_to_teme s toframe = Ok out /\
       diff_s (data out) = Some v_out /\
       vz (xyz (data out)) = vz (xyz (data s)) /\
       vz v_out = vz v).
Proof.
  intros s toframe v Hv. split.
  - eexists. eexists. split; [apply (teme_to_tirs_value s toframe v Hv) |].
    split; [reflexivity |].
    unfold rotation_matrix, _w. destruct (xyz (data s)) as [x y z], v as [a b c].
    split; vec_unfold; cbn [data xyz vz]; vec_unfold; ring.
  - eexists. eexists. split; [apply (tirs_to_teme_value s toframe v Hv) |].
    split; [reflexivity |].
    unfold rotation_matrix, _w. destruct (xyz (data s)) as [x y z], v as [a b c].
    split; vec_unfold; cbn [data xyz vz]; vec_unfold; ring.
Qed.

(** X11. A state without velocity cannot travel between TEME and ITRS in
    either direction. From TEME the first hop raises; from ITRS the
    polar-motion hop goes through and the hop from TIRS to TEME raises. In
    both cases the chain ends with the [ValueError] of the velocity read. *)
Theorem chains_raise_without_velocity :
  forall (s : Coord Time) (toframe : Frame Time),
    diff_s (data s) = None ->
    teme_to_itrs s toframe
    = Raise (ValueError
        "Frame has no associated velocity (Differential) data information.") /\
    is_ok (apply_edge (DynamicMatrixTransform itrs_to_tirs) s
             (mkFrame TIRS (obstime toframe))) = true /\
    itrs_to_teme s toframe
    = Raise (ValueError
        "Frame has no associated velocity (Differential) data information.").
Proof.
  intros s toframe Hv. split; [| split].
  - unfold teme_to_itrs, apply_edge, teme_to_tirs, velocity. rewrite Hv. reflexivity.
  - reflexivity.
  - unfold itrs_to_teme, apply_edge, apply_matrix_edge, realize_frame.
    cbn [bind]. unfold tirs_to_teme, velocity. cbn [data diff_s].
    rewrite Hv. reflexivity.
Qed.

End AxisAndChains.

Lemma z_components_on_example :
  diff_s (data coord_teme) = Some v_TEME_true /\
  exists out v_out,
    teme_to_tirs (eop := fixed_orientation) coord_teme tirs_at_output_time = Ok out /\
    diff_s (data out) = Some v_out /\
    vz (xyz (data out)) = vz r_TEME_true /\
    vz v_out = vz v_TEME_true.
Proof.
  split; [reflexivity |].
  exact (proj1 (teme_tirs_keep_z_components (eop := fixed_orientation)
                  coord_teme tirs_at_output_time v_TEME_true eq_refl)).
Defined.

Lemma position_only_chains_raise :
  diff_s (data coord_teme_position_only) = None /\
  teme_to_itrs (eop := fixed_orientation) coord_teme_position_only itrs_at_output_time
  = Raise (ValueError
      "Frame has no associated velocity (Differential) data information.").
Proof.
  split; [reflexivity |].
  exact (proj1 (chains_raise_without_velocity (eop := fixed_orientation)
                  coord_teme_position_only itrs_at_output_time eq_refl)).
Defined.

(** ** Round trips in binary64 *)

Module Binary64Facts.

Import Floats.
Import Binary64.

Section RoundTrips.

Context {Time : Type} {orientation : Orientation Time}.

Lemma velocity_of_present (c : Coord Time) (v : Vec3) :
  velocity c = Some v -> velocity_of c = Ok v.
Proof. unfold velocity_of. intros ->. reflexivity. Qed.


End RoundTrips.



End Binary64Facts.
